(** * Shallow embedding of SceneManager.cpp and ViewManager.cpp

    Floating-point scalars ([float] in the C++ source) are modelled as
    real numbers; GLM vectors and matrices as records / functions over
    [R].  Tags ([std::string]) are Rocq strings compared with
    [String.eqb], which is what [std::string::compare(..) == 0] decides. *)

From Stdlib Require Import Reals Lra Lia List String Bool ZArith.
Import ListNotations.
Open Scope R_scope.
Open Scope string_scope.

(** ** GLM values *)

Record vec3 := mkvec3 { vx : R; vy : R; vz : R }.

Definition vec3_add (a b : vec3) : vec3 :=
  mkvec3 (vx a + vx b) (vy a + vy b) (vz a + vz b).

Definition vec3_scale (k : R) (a : vec3) : vec3 :=
  mkvec3 (k * vx a) (k * vy a) (k * vz a).

Definition dot (a b : vec3) : R := vx a * vx b + vy a * vy b + vz a * vz b.

Definition cross (a b : vec3) : vec3 :=
  mkvec3 (vy a * vz b - vy b * vz a)
         (vz a * vx b - vz b * vx a)
         (vx a * vy b - vx b * vy a).

(** [glm::normalize v = v * inversesqrt(dot(v, v))]. *)
Definition normalize (v : vec3) : vec3 := vec3_scale (/ sqrt (dot v v)) v.

(** [glm::radians]. *)
Definition radians (deg : R) : R := deg * (PI / 180).

(** A 4x4 matrix, indexed (row, column), entries 0..3. *)
Definition mat4 := nat -> nat -> R.

Definition mat4_mul (m n : mat4) : mat4 :=
  fun i j => m i 0%nat * n 0%nat j + m i 1%nat * n 1%nat j
           + m i 2%nat * n 2%nat j + m i 3%nat * n 3%nat j.

Definition vec4 := nat -> R.

Definition mat4_apply (m : mat4) (v : vec4) : vec4 :=
  fun i => m i 0%nat * v 0%nat + m i 1%nat * v 1%nat
         + m i 2%nat * v 2%nat + m i 3%nat * v 3%nat.

Definition mkvec4 (a b c d : R) : vec4 :=
  fun i => match i with 0 => a | 1 => b | 2 => c | _ => d end%nat.

(** ** Shader uniform uploads *)

(** A value handed to one of the [ShaderManager::set...Value] setters. *)
Inductive uniform_value :=
| UInt (b : bool)          (** [setIntValue] with a [bool] argument *)
| UFloat (r : R)           (** [setFloatValue] *)
| UVec2 (u v : R)          (** [setVec2Value] *)
| UVec3 (v : vec3)         (** [setVec3Value] *)
| UVec4 (r g b a : R)      (** [setVec4Value] *)
| UMat4 (m : mat4)         (** [setMat4Value] *)
| USampler (slot : Z).     (** [setSampler2DValue] *)

Definition upload := (string * uniform_value)%type.

(** Outcome of a SceneManager method: the uniforms it uploads, in order,
    or a call through the null [m_pShaderManager] pointer. *)
Inductive outcome :=
| Uploads (us : list upload)
| NullShaderDeref.

(** ** SceneManager data *)

Record TEXTURE_INFO := mkTEXTURE_INFO { ID : Z; ttag : string }.

Record OBJECT_MATERIAL := mkOBJECT_MATERIAL {
  ambientColor : vec3;
  ambientStrength : R;
  diffuseColor : vec3;
  specularColor : vec3;
  shininess : R;
  mtag : string
}.

(** The fields of a [SceneManager] the methods below read.
    [m_textureIDs] holds the [m_loadedTextures] registered textures, so
    its length is [m_loadedTextures]; [shader_present] is
    [m_pShaderManager != NULL]; [next_gl_name] stands for the texture
    name the next [glGenTextures] call returns. *)
Record SceneManager := mkSceneManager {
  shader_present : bool;
  m_textureIDs : list TEXTURE_INFO;
  m_objectMaterials : list OBJECT_MATERIAL;
  next_gl_name : Z
}.

Definition m_loadedTextures (sm : SceneManager) : nat := List.length (m_textureIDs sm).

(** ** FindTextureSlot *)

(** The [while] loop of [FindTextureSlot], from [index] on. *)
Fixpoint find_texture_slot_from (l : list TEXTURE_INFO) (tag : string) (index : Z) : Z :=
  match l with
  | [] => (-1)%Z
  | t :: rest =>
      if String.eqb (ttag t) tag then index
      else find_texture_slot_from rest tag (index + 1)
  end.

Definition FindTextureSlot (sm : SceneManager) (tag : string) : Z :=
  find_texture_slot_from (m_textureIDs sm) tag 0.

(** ** FindMaterial *)

(** [FindMaterial(tag, material)]: [material] is the caller's
    out-parameter; the result pairs the returned [bool] with the
    out-parameter's final contents. *)
Fixpoint find_material_loop (l : list OBJECT_MATERIAL) (tag : string)
    (material : OBJECT_MATERIAL) : OBJECT_MATERIAL :=
  match l with
  | [] => material
  | m :: rest =>
      if String.eqb (mtag m) tag then
        {| ambientColor := ambientColor m;
           ambientStrength := ambientStrength m;
           diffuseColor := diffuseColor m;
           specularColor := specularColor m;
           shininess := shininess m;
           mtag := mtag material |}
      else find_material_loop rest tag material
  end.

Definition FindMaterial (sm : SceneManager) (tag : string) (material : OBJECT_MATERIAL)
    : bool * OBJECT_MATERIAL :=
  match m_objectMaterials sm with
  | [] => (false, material)
  | l => (true, find_material_loop l tag material)
  end.

(** ** SetShaderMaterial *)

(** [uninit] is whatever the local [OBJECT_MATERIAL material;] of
    [SetShaderMaterial] holds before [FindMaterial] writes to it. *)
Definition material_uploads (material : OBJECT_MATERIAL) : list upload :=
  [("material.ambientColor", UVec3 (ambientColor material));
   ("material.ambientStrength", UFloat (ambientStrength material));
   ("material.diffuseColor", UVec3 (diffuseColor material));
   ("material.specularColor", UVec3 (specularColor material));
   ("material.shininess", UFloat (shininess material))].

Definition SetShaderMaterial (sm : SceneManager) (materialTag : string)
    (uninit : OBJECT_MATERIAL) : outcome :=
  if (0 <? List.length (m_objectMaterials sm))%nat then
    let (bReturn, material) := FindMaterial sm materialTag uninit in
    if bReturn then
      if shader_present sm then Uploads (material_uploads material)
      else NullShaderDeref
    else Uploads []
  else Uploads [].

(** ** SetTransformations *)

(** [glm::scale(v)]. *)
Definition glm_scale (v : vec3) : mat4 :=
  fun i j => match i, j with
  | 0, 0 => vx v | 1, 1 => vy v | 2, 2 => vz v | 3, 3 => 1
  | _, _ => 0 end.

(** [glm::translate(v)]: identity with [v] in the last column. *)
Definition glm_translate (v : vec3) : mat4 :=
  fun i j => match i, j with
  | 0, 3 => vx v | 1, 3 => vy v | 2, 3 => vz v
  | 0, 0 => 1 | 1, 1 => 1 | 2, 2 => 1 | 3, 3 => 1
  | _, _ => 0 end.

(** [glm::rotate(angle, v)] (= [rotate(mat4(1), angle, v)]); GLM fills
    [Rotate[col][row]], here written as entry (row, col). *)
Definition glm_rotate (angle : R) (v : vec3) : mat4 :=
  let c := cos angle in
  let s := sin angle in
  let axis := normalize v in
  let temp := vec3_scale (1 - c) axis in
  fun i j => match i, j with
  | 0, 0 => c + vx temp * vx axis
  | 1, 0 => vx temp * vy axis + s * vz axis
  | 2, 0 => vx temp * vz axis - s * vy axis
  | 0, 1 => vy temp * vx axis - s * vz axis
  | 1, 1 => c + vy temp * vy axis
  | 2, 1 => vy temp * vz axis + s * vx axis
  | 0, 2 => vz temp * vx axis + s * vy axis
  | 1, 2 => vz temp * vy axis - s * vx axis
  | 2, 2 => c + vz temp * vz axis
  | 3, 3 => 1
  | _, _ => 0 end.

(** The [modelView] matrix [SetTransformations] computes. *)
Definition model_matrix (scaleXYZ : vec3) (XrotationDegrees YrotationDegrees
    ZrotationDegrees : R) (positionXYZ : vec3) : mat4 :=
  let scale := glm_scale scaleXYZ in
  let rotationX := glm_rotate (radians XrotationDegrees) (mkvec3 1 0 0) in
  let rotationY := glm_rotate (radians YrotationDegrees) (mkvec3 0 1 0) in
  let rotationZ := glm_rotate (radians ZrotationDegrees) (mkvec3 0 0 1) in
  let translation := glm_translate positionXYZ in
  mat4_mul (mat4_mul (mat4_mul (mat4_mul translation rotationX) rotationY) rotationZ) scale.

Definition SetTransformations (sm : SceneManager) (scaleXYZ : vec3)
    (XrotationDegrees YrotationDegrees ZrotationDegrees : R) (positionXYZ : vec3) : outcome :=
  let modelView := model_matrix scaleXYZ XrotationDegrees YrotationDegrees
                     ZrotationDegrees positionXYZ in
  if shader_present sm then Uploads [("model", UMat4 modelView)]
  else Uploads [].

(** ** SetShaderColor, SetShaderTexture, SetTextureUVScale *)

Definition SetShaderColor (sm : SceneManager)
    (redColorValue greenColorValue blueColorValue alphaValue : R) : outcome :=
  if shader_present sm then
    Uploads [("bUseTexture", UInt false);
             ("objectColor", UVec4 redColorValue greenColorValue blueColorValue alphaValue)]
  else Uploads [].

Definition SetShaderTexture (sm : SceneManager) (textureTag : string) : outcome :=
  if shader_present sm then
    let textureID := FindTextureSlot sm textureTag in
    Uploads [("bUseTexture", UInt true); ("objectTexture", USampler textureID)]
  else Uploads [].

Definition SetTextureUVScale (sm : SceneManager) (u v : R) : outcome :=
  if shader_present sm then Uploads [("UVscale", UVec2 u v)]
  else Uploads [].

(** ** CreateGLTexture *)

(** What [stbi_load] reports for a decoded image. *)
Record stbi_image := mkstbi_image { width : Z; height : Z; colorChannels : Z }.

(** [CreateGLTexture(filename, tag)], with [decoded] the result of
    [stbi_load(filename, ...)]: [None] when it returns [NULL].
    [glGenTextures] runs before the channel check, so a rejected image
    still consumes a texture name. *)
Definition CreateGLTexture (sm : SceneManager) (decoded : option stbi_image)
    (tag : string) : bool * SceneManager :=
  match decoded with
  | None => (false, sm)
  | Some image =>
      let textureID := next_gl_name sm in
      let sm1 := {| shader_present := shader_present sm;
                    m_textureIDs := m_textureIDs sm;
                    m_objectMaterials := m_objectMaterials sm;
                    next_gl_name := (textureID + 1)%Z |} in
      if ((colorChannels image =? 3)%Z || (colorChannels image =? 4)%Z)%bool then
        (true, {| shader_present := shader_present sm1;
                  m_textureIDs := (m_textureIDs sm1 ++ [mkTEXTURE_INFO textureID tag])%list;
                  m_objectMaterials := m_objectMaterials sm1;
                  next_gl_name := next_gl_name sm1 |})
      else (false, sm1)
  end.

(** ** Camera (camera.h) *)

(** The public fields of [Camera] the view manager reads or writes. *)
Record Camera := mkCamera {
  Position : vec3;
  Front : vec3;
  Up : vec3;
  Right : vec3;
  WorldUp : vec3;
  Yaw : R;
  Pitch : R;
  MovementSpeed : R;
  MouseSensitivity : R;
  Zoom : R
}.

(** Modelled from the spec: [Camera::updateCameraVectors] of camera.h,
    which is not under src/.  The spec says the zero-offset orientation
    update "recompute[s] camera basis vectors from the loaded yaw/pitch";
    the formula is the one of the standard camera helper the spec says
    the code passes through to. *)
Definition updateCameraVectors (cam : Camera) : Camera :=
  let front := mkvec3 (cos (radians (Yaw cam)) * cos (radians (Pitch cam)))
                      (sin (radians (Pitch cam)))
                      (sin (radians (Yaw cam)) * cos (radians (Pitch cam))) in
  let Front' := normalize front in
  let Right' := normalize (cross Front' (WorldUp cam)) in
  let Up' := normalize (cross Right' Front') in
  {| Position := Position cam; Front := Front'; Up := Up'; Right := Right';
     WorldUp := WorldUp cam; Yaw := Yaw cam; Pitch := Pitch cam;
     MovementSpeed := MovementSpeed cam; MouseSensitivity := MouseSensitivity cam;
     Zoom := Zoom cam |}.

(** [if (Pitch > 89.0f) Pitch = 89.0f; if (Pitch < -89.0f) Pitch = -89.0f;] *)
Definition constrain_pitch (p : R) : R :=
  if Rlt_dec 89 p then 89 else if Rlt_dec p (-89) then -89 else p.

(** Modelled from the spec: [Camera::ProcessMouseMovement(xoffset,
    yoffset)] of camera.h (not under src/), the camera's
    "orientation-update routine": offsets scaled by the mouse
    sensitivity are added to yaw and pitch, pitch is kept within
    [-89, 89] as the standard helper does, and the basis vectors are
    recomputed. *)
Definition ProcessMouseMovement (cam : Camera) (xoffset yoffset : R) : Camera :=
  let xo := xoffset * MouseSensitivity cam in
  let yo := yoffset * MouseSensitivity cam in
  updateCameraVectors
    {| Position := Position cam; Front := Front cam; Up := Up cam; Right := Right cam;
       WorldUp := WorldUp cam; Yaw := Yaw cam + xo;
       Pitch := constrain_pitch (Pitch cam + yo);
       MovementSpeed := MovementSpeed cam; MouseSensitivity := MouseSensitivity cam;
       Zoom := Zoom cam |}.

(** Modelled from the spec: the default-constructed [Camera()] of
    camera.h (not under src/), with the standard helper's defaults
    (yaw -90, pitch 0, speed 2.5, sensitivity 0.1, zoom 45, world up
    (0,1,0)); its constructor runs [updateCameraVectors]. *)
Definition Camera_default : Camera :=
  updateCameraVectors
    {| Position := mkvec3 0 0 0; Front := mkvec3 0 0 (-1); Up := mkvec3 0 1 0;
       Right := mkvec3 1 0 0; WorldUp := mkvec3 0 1 0; Yaw := -90; Pitch := 0;
       MovementSpeed := 2.5; MouseSensitivity := 0.1; Zoom := 45 |}.

(** ** ViewManager state *)

(** The saved pose of one projection mode: [perspectivePosition] ...
    [perspectivePitch], or the [orthographic...] counterparts. *)
Record Pose := mkPose {
  pPosition : vec3; pFront : vec3; pUp : vec3; pYaw : R; pPitch : R
}.

(** ** Binary floating point

    A [double] or [float] value is a dyadic rational [mant * 2^expo].
    [round_binary prec emin] rounds to the nearest number with a
    [prec]-bit significand and exponent at least [emin], ties to even
    (the default rounding of C++ conversions and arithmetic); [to_float]
    is binary32, [to_double] binary64.  Overflow is outside the model:
    results of magnitude 2^128 or more, where the code would produce an
    infinity, are kept finite. *)
Record dyadic := mkdyadic { mant : Z; expo : Z }.

Definition dval (d : dyadic) : R := IZR (mant d) * powerRZ 2 (expo d).

(** [a / 2^k] rounded to nearest, ties to even, for [a >= 0], [k > 0]. *)
Definition round_pos_shift (a k : Z) : Z :=
  let q := Z.shiftr a k in
  let r := (a - Z.shiftl q k)%Z in
  let half := Z.shiftl 1 (k - 1) in
  if (r <? half)%Z then q
  else if (half <? r)%Z then (q + 1)%Z
  else if Z.even q then q else (q + 1)%Z.

Definition round_binary (prec emin : Z) (d : dyadic) : dyadic :=
  if (mant d =? 0)%Z then d
  else
    let k := Z.max (Z.log2 (Z.abs (mant d)) + 1 - prec) (emin - expo d) in
    if (k <=? 0)%Z then d
    else mkdyadic (Z.sgn (mant d) * round_pos_shift (Z.abs (mant d)) k) (expo d + k).

Definition to_float (d : dyadic) : dyadic := round_binary 24 (-149) d.
Definition to_double (d : dyadic) : dyadic := round_binary 53 (-1074) d.

(** The exact difference, before rounding. *)
Definition dsub (a b : dyadic) : dyadic :=
  let e := Z.min (expo a) (expo b) in
  mkdyadic (mant a * 2 ^ (expo a - e) - mant b * 2 ^ (expo b - e)) e.

(** [d] written with a significand of at most 24 bits, an exponent
    within binary32's range and magnitude below 2^128: a [float]. *)
Definition fits_float (d : dyadic) : bool :=
  (Z.abs (mant d) <? 16777216)%Z && (-149 <=? expo d)%Z &&
  (Z.log2 (Z.abs (mant d)) + 1 + expo d <=? 128)%Z.

(** An integer pixel coordinate of magnitude below 2^23. *)
Definition int_coord (d : dyadic) : bool :=
  (expo d =? 0)%Z && (Z.abs (mant d) <? 8388608)%Z.

(** The [double] nearest to 0.1. *)
Definition double_0_1 : dyadic := mkdyadic 7205759403792794 (-56).

(** The translation-unit globals of ViewManager.cpp, with [cam] the
    object [g_pCamera] points to (after the constructor has run). *)
Record ViewState := mkViewState {
  cam : Camera;
  gLastX : dyadic;
  gLastY : dyadic;
  gFirstMouse : bool;
  gCameraSpeed : R;
  bOrthographicProjection : bool;
  perspective : Pose;
  orthographic : Pose;
  cameraStatesInitialized : bool
}.

Definition MIN_CAMERA_SPEED : R := 0.5.
Definition MAX_CAMERA_SPEED : R := 10.

Definition pose_of (c : Camera) : Pose :=
  mkPose (Position c) (Front c) (Up c) (Yaw c) (Pitch c).

(** [g_pCamera->Position = ...Position; ... g_pCamera->Pitch = ...Pitch;] *)
Definition load_pose (c : Camera) (p : Pose) : Camera :=
  {| Position := pPosition p; Front := pFront p; Up := pUp p; Right := Right c;
     WorldUp := WorldUp c; Yaw := pYaw p; Pitch := pPitch p;
     MovementSpeed := MovementSpeed c; MouseSensitivity := MouseSensitivity c;
     Zoom := Zoom c |}.

(** State after [ViewManager::ViewManager] (with the namespace globals'
    initialisers). *)
Definition ViewManager_init : ViewState :=
  let c0 := Camera_default in
  let c := {| Position := mkvec3 0 5 12; Front := mkvec3 0 (-0.5) (-2);
              Up := mkvec3 0 1 0; Right := Right c0; WorldUp := WorldUp c0;
              Yaw := Yaw c0; Pitch := Pitch c0; MovementSpeed := MovementSpeed c0;
              MouseSensitivity := MouseSensitivity c0; Zoom := 80 |} in
  {| cam := c;
     gLastX := mkdyadic 500 0; gLastY := mkdyadic 400 0; gFirstMouse := true;
     gCameraSpeed := 2.5;
     bOrthographicProjection := false;
     perspective := pose_of c;
     orthographic := mkPose (mkvec3 0 15 0) (mkvec3 0 (-1) 0) (mkvec3 0 0 (-1)) (-90) (-89);
     cameraStatesInitialized := true |}.

(** ** ViewManager callbacks and projection switches *)


(** [Mouse_Position_Callback(window, xMousePos, yMousePos)]: the new
    state, and the offsets passed to [g_pCamera->ProcessMouseMovement].
    The coordinates are [double]s; [gLastX = xMousePos] narrows them to
    [float]; [float xOffset = xMousePos - gLastX] promotes [gLastX] back
    to [double] (exactly), rounds the difference to [double] and then
    to [float]. *)
Definition Mouse_Position_Callback (st : ViewState) (xMousePos yMousePos : dyadic)
    : ViewState * (dyadic * dyadic) :=
  let '(lastX, lastY) :=
    if gFirstMouse st then (to_float xMousePos, to_float yMousePos)
    else (gLastX st, gLastY st) in
  let xOffset := to_float (to_double (dsub xMousePos lastX)) in
  let yOffset := to_float (to_double (dsub lastY yMousePos)) in
  ({| cam := ProcessMouseMovement (cam st) (dval xOffset) (dval yOffset);
      gLastX := to_float xMousePos; gLastY := to_float yMousePos; gFirstMouse := false;
      gCameraSpeed := gCameraSpeed st; bOrthographicProjection := bOrthographicProjection st;
      perspective := perspective st; orthographic := orthographic st;
      cameraStatesInitialized := cameraStatesInitialized st |},
   (xOffset, yOffset)).

(** The speed clamp of [Mouse_Scroll_Callback]. *)
Definition clamp_speed (s : R) : R :=
  if Rlt_dec s MIN_CAMERA_SPEED then MIN_CAMERA_SPEED
  else if Rlt_dec MAX_CAMERA_SPEED s then MAX_CAMERA_SPEED
  else s.

(** [Mouse_Scroll_Callback(window, xOffset, yOffset)]. *)
Definition Mouse_Scroll_Callback (st : ViewState) (xOffset yOffset : R) : ViewState :=
  let speed := clamp_speed (gCameraSpeed st + yOffset * 0.5) in
  let c := cam st in
  {| cam := {| Position := Position c; Front := Front c; Up := Up c; Right := Right c;
               WorldUp := WorldUp c; Yaw := Yaw c; Pitch := Pitch c;
               MovementSpeed := speed; MouseSensitivity := MouseSensitivity c;
               Zoom := Zoom c |};
     gLastX := gLastX st; gLastY := gLastY st; gFirstMouse := gFirstMouse st;
     gCameraSpeed := speed; bOrthographicProjection := bOrthographicProjection st;
     perspective := perspective st; orthographic := orthographic st;
     cameraStatesInitialized := cameraStatesInitialized st |}.

(** Camera speeds after each of a sequence of vertical scroll deltas. *)
Fixpoint scroll_speeds (st : ViewState) (deltas : list R) : list R :=
  match deltas with
  | [] => []
  | d :: rest =>
      let st' := Mouse_Scroll_Callback st 0 d in
      gCameraSpeed st' :: scroll_speeds st' rest
  end.

Definition SwitchToOrthographic (st : ViewState) : ViewState :=
  if negb (bOrthographicProjection st) && cameraStatesInitialized st then
    let saved := pose_of (cam st) in
    let c := ProcessMouseMovement (load_pose (cam st) (orthographic st)) 0 0 in
    {| cam := c; gLastX := gLastX st; gLastY := gLastY st; gFirstMouse := gFirstMouse st;
       gCameraSpeed := gCameraSpeed st; bOrthographicProjection := true;
       perspective := saved; orthographic := orthographic st;
       cameraStatesInitialized := cameraStatesInitialized st |}
  else st.

Definition SwitchToPerspective (st : ViewState) : ViewState :=
  if bOrthographicProjection st && cameraStatesInitialized st then
    let saved := pose_of (cam st) in
    let c := ProcessMouseMovement (load_pose (cam st) (perspective st)) 0 0 in
    {| cam := c; gLastX := gLastX st; gLastY := gLastY st; gFirstMouse := gFirstMouse st;
       gCameraSpeed := gCameraSpeed st; bOrthographicProjection := false;
       perspective := perspective st; orthographic := saved;
       cameraStatesInitialized := cameraStatesInitialized st |}
  else st.

(** ** Concrete catalogs *)

(** [grassMaterial] of [DefineObjectMaterials]. *)
Definition grass_material : OBJECT_MATERIAL :=
  mkOBJECT_MATERIAL (mkvec3 0.4 0.6 0.3) 0.03 (mkvec3 0.4 0.6 0.3) (mkvec3 0.35 0.45 0.35) 5 "grass".

Definition zero_material : OBJECT_MATERIAL :=
  mkOBJECT_MATERIAL (mkvec3 0 0 0) 0 (mkvec3 0 0 0) (mkvec3 0 0 0) 0 "".

Definition scene_with_grass (shader : bool) : SceneManager :=
  mkSceneManager shader [mkTEXTURE_INFO 1 "grass"] [grass_material] 2.

(** Whether [stbi_load] succeeded with a channel count CreateGLTexture uploads. *)
Definition decodes_supported (decoded : option stbi_image) : bool :=
  match decoded with
  | Some image => ((colorChannels image =? 3)%Z || (colorChannels image =? 4)%Z)%bool
  | None => false
  end.

(** ** FindTextureID, BindGLTextures, DestroyGLTextures *)

(** The [while] loop of [FindTextureID]: the GL name of the first entry
    whose tag matches, or -1. *)
Fixpoint find_texture_id_from (l : list TEXTURE_INFO) (tag : string) : Z :=
  match l with
  | [] => (-1)%Z
  | t :: rest => if String.eqb (ttag t) tag then ID t else find_texture_id_from rest tag
  end.

Definition FindTextureID (sm : SceneManager) (tag : string) : Z :=
  find_texture_id_from (m_textureIDs sm) tag.

(** [BindGLTextures]: the (texture unit, texture name) pairs bound by
    [glActiveTexture(GL_TEXTURE0 + i); glBindTexture(GL_TEXTURE_2D, ID)],
    in loop order. *)
Fixpoint bind_textures_from (l : list TEXTURE_INFO) (i : Z) : list (Z * Z) :=
  match l with
  | [] => []
  | t :: rest => (i, ID t) :: bind_textures_from rest (i + 1)
  end.

Definition BindGLTextures (sm : SceneManager) : list (Z * Z) :=
  bind_textures_from (m_textureIDs sm) 0.

(** [DestroyGLTextures]: the loop calls [glGenTextures(1, &m_textureIDs[i].ID)]
    on every entry, storing the name GL generates in it.  Which names GL
    returns is its own choice: [gen k] is the one the [k]-th call returns. *)
Fixpoint regenerate_names (l : list TEXTURE_INFO) (gen : nat -> Z) (k : nat)
    : list TEXTURE_INFO :=
  match l with
  | [] => []
  | t :: rest => mkTEXTURE_INFO (gen k) (ttag t) :: regenerate_names rest gen (S k)
  end.

Definition DestroyGLTextures (sm : SceneManager) (gen : nat -> Z) : SceneManager :=
  {| shader_present := shader_present sm;
     m_textureIDs := regenerate_names (m_textureIDs sm) gen 0;
     m_objectMaterials := m_objectMaterials sm;
     next_gl_name := next_gl_name sm |}.

(** ** LoadSceneTextures, DefineObjectMaterials *)

(** Successive [CreateGLTexture] calls, each with the decoding result of
    its file and its tag; the returned [bool]s are discarded. *)
Fixpoint load_textures (sm : SceneManager) (reqs : list (option stbi_image * string))
    : SceneManager :=
  match reqs with
  | [] => sm
  | (decoded, tag) :: rest => load_textures (snd (CreateGLTexture sm decoded tag)) rest
  end.

(** [LoadSceneTextures], with [stbi] giving what [stbi_load] returns for
    each file name: the catalog after the five loads, and the bindings
    made by the closing [BindGLTextures]. *)
Definition LoadSceneTextures (sm : SceneManager) (stbi : string -> option stbi_image)
    : SceneManager * list (Z * Z) :=
  let sm' := load_textures sm
    [(stbi "textures/plants_grass_seamless.jpg", "grass");
     (stbi "textures/dirt.jpg", "dirt");
     (stbi "textures/brick.jpg", "brick");
     (stbi "textures/plants_hedge_seamless.jpg", "hedge");
     (stbi "textures/foliage.jpg", "foliage")] in
  (sm', BindGLTextures sm').

(** The five materials [DefineObjectMaterials] pushes, in order. *)
Definition scene_materials : list OBJECT_MATERIAL :=
  [mkOBJECT_MATERIAL (mkvec3 0.4 0.6 0.3) 0.03 (mkvec3 0.4 0.6 0.3) (mkvec3 0.35 0.45 0.35) 5 "grass";
   mkOBJECT_MATERIAL (mkvec3 0.5 0.4 0.3) 0.01 (mkvec3 0.5 0.4 0.3) (mkvec3 0.18 0.18 0.18) 1.2 "dirt";
   mkOBJECT_MATERIAL (mkvec3 0.6 0.4 0.3) 0.05 (mkvec3 0.6 0.4 0.3) (mkvec3 0.45 0.35 0.35) 4 "brick";
   mkOBJECT_MATERIAL (mkvec3 0.3 0.5 0.2) 0.06 (mkvec3 0.3 0.5 0.2) (mkvec3 0.22 0.32 0.22) 3 "hedge";
   mkOBJECT_MATERIAL (mkvec3 0.35 0.55 0.25) 0.06 (mkvec3 0.35 0.55 0.25) (mkvec3 0.28 0.35 0.28) 7 "foliage"].

Definition DefineObjectMaterials (sm : SceneManager) : SceneManager :=
  {| shader_present := shader_present sm;
     m_textureIDs := m_textureIDs sm;
     m_objectMaterials := (m_objectMaterials sm ++ scene_materials)%list;
     next_gl_name := next_gl_name sm |}.

(** ** RenderScene *)

Inductive mesh := PlaneMesh | BoxMesh | Pyramid4Mesh | ConeMesh.

(** One statement of [RenderScene]. *)
Inductive scene_call :=
| CallTransform (scaleXYZ : vec3) (xr yr zr : R) (positionXYZ : vec3)
| CallUVScale (u v : R)
| CallMaterial (materialTag : string)
| CallTexture (textureTag : string)
| CallLoad (m : mesh)
| CallDraw (m : mesh).

Definition brick_call (x y z : R) : list scene_call :=
  [CallTransform (mkvec3 0.5 0.15 0.5) 0 45 0 (mkvec3 x y z); CallDraw BoxMesh].

(** A box-and-cone topiary unit of [RenderScene]. *)
Definition topiary_calls (px pz coneScale : R) : list scene_call :=
  [CallTransform (mkvec3 2 1 1.5) 0 45 0 (mkvec3 px 0.75 pz);
   CallUVScale 1.5 1; CallMaterial "hedge"; CallTexture "hedge"; CallDraw BoxMesh;
   CallTransform (mkvec3 coneScale 1 coneScale) 0 45 0 (mkvec3 px 1.25 pz);
   CallUVScale 1.2 1.2; CallMaterial "foliage"; CallTexture "foliage"; CallDraw ConeMesh].

(** The statements of [RenderScene], in order. *)
Definition RenderScene_calls : list scene_call :=
  [CallTransform (mkvec3 20 1 15) 0 0 0 (mkvec3 0 0 0);
   CallUVScale 4 2; CallMaterial "grass"; CallTexture "grass"; CallDraw PlaneMesh;
   CallTransform (mkvec3 8 3.5 8) 0 0 0 (mkvec3 0 0.02 6.5);
   CallUVScale 2 2; CallMaterial "dirt"; CallTexture "dirt"; CallDraw PlaneMesh;
   CallUVScale 1 1; CallMaterial "brick"; CallTexture "brick"]
  ++ brick_call (-1.2) 0.08 7.2 ++ brick_call (-1.6) 0.08 7.6 ++ brick_call (-2) 0.08 8
  ++ brick_call (-2.4) 0.08 8.4 ++ brick_call (-2.8) 0.08 8.8
  ++ brick_call (-0.8) 0.08 7.6 ++ brick_call (-1.2) 0.08 8 ++ brick_call (-1.6) 0.08 8.4
  ++ brick_call (-2) 0.08 8.8 ++ brick_call (-2.4) 0.08 9.2
  ++ [CallTransform (mkvec3 2 1 1.5) 0 45 0 (mkvec3 0 0.75 6.5);
      CallUVScale 2 1; CallMaterial "hedge"; CallTexture "hedge"; CallDraw BoxMesh;
      CallTransform (mkvec3 1.5 2.5 1.5) 0 45 0 (mkvec3 0 2.5 6.5);
      CallUVScale 1.5 1.5; CallMaterial "foliage"; CallTexture "foliage"; CallDraw Pyramid4Mesh;
      CallLoad ConeMesh]
  ++ topiary_calls 1.5 5 0.7 ++ topiary_calls 3 3.5 0.75 ++ topiary_calls 4.5 2 0.65.

(** Whether a [SetShaderMaterial] / [SetShaderTexture] statement of the
    scene resolves its tag in the catalogs of [sm]. *)
Definition call_resolves (sm : SceneManager) (c : scene_call) : bool :=
  match c with
  | CallMaterial tag => existsb (fun m => String.eqb (mtag m) tag) (m_objectMaterials sm)
  | CallTexture tag => (0 <=? FindTextureSlot sm tag)%Z
  | _ => true
  end.

(** ** ProcessKeyboardEvents *)

Definition vec3_sub (a b : vec3) : vec3 :=
  mkvec3 (vx a - vx b) (vy a - vy b) (vz a - vz b).

Inductive Camera_Movement := FORWARD | BACKWARD | LEFT | RIGHT | UP | DOWN.

(** Modelled from the spec: [Camera::ProcessKeyboard(direction,
    deltaTime)] of camera.h (not under src/): "forward/back/left/right
    translation scaled by elapsed-time and current movement speed" along
    [Front] and [Right], and "vertical up/down translation" along [Up]. *)
Definition ProcessKeyboard (c : Camera) (direction : Camera_Movement) (deltaTime : R)
    : Camera :=
  let velocity := MovementSpeed c * deltaTime in
  let p := match direction with
           | FORWARD => vec3_add (Position c) (vec3_scale velocity (Front c))
           | BACKWARD => vec3_sub (Position c) (vec3_scale velocity (Front c))
           | LEFT => vec3_sub (Position c) (vec3_scale velocity (Right c))
           | RIGHT => vec3_add (Position c) (vec3_scale velocity (Right c))
           | UP => vec3_add (Position c) (vec3_scale velocity (Up c))
           | DOWN => vec3_sub (Position c) (vec3_scale velocity (Up c))
           end in
  {| Position := p; Front := Front c; Up := Up c; Right := Right c;
     WorldUp := WorldUp c; Yaw := Yaw c; Pitch := Pitch c;
     MovementSpeed := MovementSpeed c; MouseSensitivity := MouseSensitivity c;
     Zoom := Zoom c |}.

(** Which keys [glfwGetKey] reports as [GLFW_PRESS] in a frame. *)
Record Keys := mkKeys {
  key_escape : bool; key_w : bool; key_s : bool; key_a : bool; key_d : bool;
  key_q : bool; key_e : bool; key_p : bool; key_o : bool
}.

(** The view globals plus [gDeltaTime], the two function-local statics
    [pKeyWasPressed] / [oKeyWasPressed] of [ProcessKeyboardEvents], and
    the window's should-close flag. *)
Record FrameState := mkFrameState {
  view : ViewState;
  gDeltaTime : R;
  pKeyWasPressed : bool;
  oKeyWasPressed : bool;
  windowShouldClose : bool
}.

Definition set_cam (st : ViewState) (c : Camera) : ViewState :=
  {| cam := c; gLastX := gLastX st; gLastY := gLastY st; gFirstMouse := gFirstMouse st;
     gCameraSpeed := gCameraSpeed st; bOrthographicProjection := bOrthographicProjection st;
     perspective := perspective st; orthographic := orthographic st;
     cameraStatesInitialized := cameraStatesInitialized st |}.

Definition move_if (pressed : bool) (c : Camera) (direction : Camera_Movement) (dt : R)
    : Camera :=
  if pressed then ProcessKeyboard c direction dt else c.

Definition ProcessKeyboardEvents (fs : FrameState) (keys : Keys) : FrameState :=
  let close := if key_escape keys then true else windowShouldClose fs in
  let dt := gDeltaTime fs in
  let c := cam (view fs) in
  let c := move_if (key_w keys) c FORWARD dt in
  let c := move_if (key_s keys) c BACKWARD dt in
  let c := move_if (key_a keys) c LEFT dt in
  let c := move_if (key_d keys) c RIGHT dt in
  let c := move_if (key_q keys) c UP dt in
  let c := move_if (key_e keys) c DOWN dt in
  let v := set_cam (view fs) c in
  let v := if key_p keys && negb (pKeyWasPressed fs) then SwitchToPerspective v else v in
  let v := if key_o keys && negb (oKeyWasPressed fs) then SwitchToOrthographic v else v in
  {| view := v; gDeltaTime := dt; pKeyWasPressed := key_p keys;
     oKeyWasPressed := key_o keys; windowShouldClose := close |}.

(** A frame at 60 fps right after [ViewManager_init], no key held before. *)
Definition witness_frame : FrameState :=
  mkFrameState ViewManager_init (1 / 60) false false false.

(** The camera [c] moved to [p], every other field kept. *)
Definition camera_at (c : Camera) (p : vec3) : Camera :=
  {| Position := p; Front := Front c; Up := Up c; Right := Right c;
     WorldUp := WorldUp c; Yaw := Yaw c; Pitch := Pitch c;
     MovementSpeed := MovementSpeed c; MouseSensitivity := MouseSensitivity c;
     Zoom := Zoom c |}.

Definition b2R (b : bool) : R := if b then 1 else 0.

(** ** Sequences of mouse moves *)

(** Successive [Mouse_Position_Callback] calls; the offsets each one
    forwards to the camera. *)
Fixpoint mouse_moves (st : ViewState) (ps : list (dyadic * dyadic))
    : ViewState * list (dyadic * dyadic) :=
  match ps with
  | [] => (st, [])
  | (x, y) :: rest =>
      let (st1, off) := Mouse_Position_Callback st x y in
      let (st2, offs) := mouse_moves st1 rest in
      (st2, off :: offs)
  end.

Definition sum_R (l : list R) : R := fold_right Rplus 0 l.

(** The position the first offset of a sequence is measured from. *)
Definition reference_position (st : ViewState) (ps : list (dyadic * dyadic))
    : dyadic * dyadic :=
  if gFirstMouse st then
    match ps with
    | p :: _ => (to_float (fst p), to_float (snd p))
    | [] => (gLastX st, gLastY st)
    end
  else (gLastX st, gLastY st).

(** * Properties *)

(** ** Catalog lookups *)

Lemma find_material_loop_absent (l : list OBJECT_MATERIAL) (tag : string) (material : OBJECT_MATERIAL) :
  Forall (fun m => mtag m <> tag) l -> find_material_loop l tag material = material.
Proof.
  induction 1 as [|m rest Hm _ IH]; simpl; [reflexivity|].
  destruct (String.eqb_spec (mtag m) tag); [contradiction | exact IH].
Qed.

Lemma find_texture_slot_from_absent (l : list TEXTURE_INFO) (tag : string) :
  Forall (fun t => ttag t <> tag) l ->
  forall index, find_texture_slot_from l tag index = (-1)%Z.
Proof.
  induction 1 as [|t rest Ht _ IH]; intros index; simpl; [reflexivity|].
  destruct (String.eqb_spec (ttag t) tag); [contradiction | apply IH].
Qed.

(** [FindTextureSlot] returns the insertion-order index of the first
    entry whose tag matches, for any tag and any catalog. *)
Lemma FindTextureSlot_first_match (pre post : list TEXTURE_INFO) (t : TEXTURE_INFO)
    (tag : string) (shader : bool) (mats : list OBJECT_MATERIAL) (next : Z) :
  Forall (fun x => ttag x <> tag) pre -> ttag t = tag ->
  FindTextureSlot (mkSceneManager shader (pre ++ t :: post) mats next) tag
  = Z.of_nat (List.length pre).
Proof.
  intros Hpre Ht. unfold FindTextureSlot; simpl.
  change 0%Z with (Z.of_nat 0).
  assert (forall n, find_texture_slot_from (pre ++ t :: post) tag (Z.of_nat n)
                    = Z.of_nat (n + List.length pre)) as G.
  { induction Hpre as [|x rest Hx _ IH]; intros n; simpl.
    - rewrite (proj2 (String.eqb_eq _ _) Ht). f_equal; lia.
    - destruct (String.eqb_spec (ttag x) tag); [contradiction|].
      replace (Z.of_nat n + 1)%Z with (Z.of_nat (S n)) by lia.
      rewrite IH. f_equal; lia. }
  rewrite G. reflexivity.
Qed.

(** [FindTextureSlot] returns -1 when no entry carries the tag. *)
Lemma FindTextureSlot_absent (sm : SceneManager) (tag : string) :
  Forall (fun x => ttag x <> tag) (m_textureIDs sm) -> FindTextureSlot sm tag = (-1)%Z.
Proof. intros H. unfold FindTextureSlot. apply find_texture_slot_from_absent; assumption. Qed.

(** C6 (code_bug): on a non-empty material catalog that holds no entry
    with the tag, [FindMaterial] still returns [true] (the [bFound] the
    loop computes is never returned) and leaves the out-parameter as it
    was, instead of reporting not-found. *)
Theorem FindMaterial_miss_reports_found (sm : SceneManager) (tag : string)
    (material : OBJECT_MATERIAL) :
  m_objectMaterials sm <> [] ->
  Forall (fun m => mtag m <> tag) (m_objectMaterials sm) ->
  FindMaterial sm tag material = (true, material).
Proof.
  intros Hne Habs. unfold FindMaterial.
  destruct (m_objectMaterials sm) as [|m rest] eqn:E; [contradiction|].
  rewrite (find_material_loop_absent _ _ _ Habs). reflexivity.
Qed.

(** ** Material upload on a lookup miss *)

(** C1 (code_bug): with a non-empty catalog and a tag it does not hold,
    [SetShaderMaterial] uploads all five material uniforms, carrying the
    never-initialised contents of its local [material], instead of
    uploading nothing. *)
Theorem SetShaderMaterial_miss_uploads (sm : SceneManager) (tag : string)
    (uninit : OBJECT_MATERIAL) :
  shader_present sm = true ->
  m_objectMaterials sm <> [] ->
  Forall (fun m => mtag m <> tag) (m_objectMaterials sm) ->
  SetShaderMaterial sm tag uninit = Uploads (material_uploads uninit).
Proof.
  intros Hsh Hne Habs. unfold SetShaderMaterial.
  rewrite (FindMaterial_miss_reports_found sm tag uninit Hne Habs), Hsh.
  destruct (m_objectMaterials sm) as [|m rest]; [contradiction|]. reflexivity.
Qed.

(** ** Texture loading *)

(** C4: [CreateGLTexture] returns [true] and appends exactly one entry
    ([m_loadedTextures] grows by one) exactly when the image decodes with
    3 or 4 channels; on a decoding failure or any other channel count it
    returns [false] and the texture catalog is unchanged. *)
Theorem CreateGLTexture_catalog (sm : SceneManager) (decoded : option stbi_image)
    (tag : string) :
  let (ok, sm') := CreateGLTexture sm decoded tag in
  ok = decodes_supported decoded /\
  (if decodes_supported decoded
   then m_loadedTextures sm' = S (m_loadedTextures sm) /\
        m_textureIDs sm' = (m_textureIDs sm ++ [mkTEXTURE_INFO (next_gl_name sm) tag])%list
   else m_textureIDs sm' = m_textureIDs sm /\ m_loadedTextures sm' = m_loadedTextures sm).
Proof.
  destruct decoded as [image|]; simpl; [|auto].
  destruct ((colorChannels image =? 3)%Z || (colorChannels image =? 4)%Z)%bool; simpl.
  - unfold m_loadedTextures; simpl. rewrite length_app; simpl. repeat split; lia.
  - auto.
Qed.

(** ** Model matrix *)

Lemma radians_0 : radians 0 = 0.
Proof. unfold radians; ring. Qed.

Lemma radians_90 : radians 90 = PI / 2.
Proof. unfold radians; field. Qed.

Lemma normalize_unit (a b c : R) :
  a * a + b * b + c * c = 1 -> normalize (mkvec3 a b c) = mkvec3 a b c.
Proof.
  intros H. unfold normalize, vec3_scale, dot; simpl.
  rewrite H, sqrt_1, Rinv_1. f_equal; ring.
Qed.

(** Entries 0..3 of two homogeneous vectors agree. *)
Definition vec4_eq (a b : vec4) : Prop :=
  a 0%nat = b 0%nat /\ a 1%nat = b 1%nat /\ a 2%nat = b 2%nat /\ a 3%nat = b 3%nat.

(** C5: [SetTransformations] uploads, as the "model" uniform,
    [translation * rotationX * rotationY * rotationZ * scale]; for scale
    (2,1,1), rotation (0,90,0) and translation (1,0,0) that matrix maps
    (0,0,0,1) to (1,0,0,1) and (1,0,0,1) to (1,0,-2,1). *)
Theorem SetTransformations_model_matrix :
  (forall sm scaleXYZ xr yr zr positionXYZ,
     SetTransformations sm scaleXYZ xr yr zr positionXYZ =
     if shader_present sm then
       Uploads [("model", UMat4
         (mat4_mul (mat4_mul (mat4_mul (mat4_mul (glm_translate positionXYZ)
            (glm_rotate (radians xr) (mkvec3 1 0 0)))
            (glm_rotate (radians yr) (mkvec3 0 1 0)))
            (glm_rotate (radians zr) (mkvec3 0 0 1)))
            (glm_scale scaleXYZ)))]
     else Uploads []) /\
  vec4_eq (mat4_apply (model_matrix (mkvec3 2 1 1) 0 90 0 (mkvec3 1 0 0)) (mkvec4 0 0 0 1))
          (mkvec4 1 0 0 1) /\
  vec4_eq (mat4_apply (model_matrix (mkvec3 2 1 1) 0 90 0 (mkvec3 1 0 0)) (mkvec4 1 0 0 1))
          (mkvec4 1 0 (-2) 1).
Proof.
  split; [intros; reflexivity|].
  unfold vec4_eq, model_matrix, glm_rotate.
  rewrite radians_0, radians_90, !normalize_unit by ring.
  rewrite cos_0, sin_0, cos_PI2, sin_PI2.
  unfold mat4_apply, mat4_mul, glm_translate, glm_scale, mkvec4, vec3_scale.
  cbn -[Rplus Rmult Rminus Ropp Rinv].
  repeat split; ring.
Qed.

(** ** Null shader manager *)

(** C10: with a null [m_pShaderManager], [SetTransformations],
    [SetShaderColor], [SetShaderTexture] and [SetTextureUVScale] upload
    nothing, while [SetShaderMaterial], on a non-empty catalog whose
    lookup reports found, calls through the null pointer. *)
Theorem null_shader_guards (sm : SceneManager) :
  shader_present sm = false ->
  (forall scaleXYZ xr yr zr positionXYZ,
     SetTransformations sm scaleXYZ xr yr zr positionXYZ = Uploads []) /\
  (forall r g b a, SetShaderColor sm r g b a = Uploads []) /\
  (forall textureTag, SetShaderTexture sm textureTag = Uploads []) /\
  (forall u v, SetTextureUVScale sm u v = Uploads []) /\
  (forall materialTag uninit,
     m_objectMaterials sm <> [] ->
     fst (FindMaterial sm materialTag uninit) = true ->
     SetShaderMaterial sm materialTag uninit = NullShaderDeref).
Proof.
  intros Hnull.
  unfold SetTransformations, SetShaderColor, SetShaderTexture, SetTextureUVScale.
  rewrite Hnull. repeat split; try reflexivity.
  intros materialTag uninit Hne Hfound. unfold SetShaderMaterial.
  destruct (FindMaterial sm materialTag uninit) as [b m] eqn:E.
  simpl in Hfound. subst b. rewrite Hnull.
  destruct (m_objectMaterials sm); [contradiction | reflexivity].
Qed.

(** ** Camera orientation update with zero offsets *)

Lemma constrain_pitch_id (p : R) : -89 <= p <= 89 -> constrain_pitch p = p.
Proof.
  intros H. unfold constrain_pitch.
  destruct (Rlt_dec 89 p); [lra|]. destruct (Rlt_dec p (-89)); [lra|reflexivity].
Qed.

(** A zero-offset [ProcessMouseMovement] keeps yaw and (in-range) pitch
    and only recomputes the basis vectors. *)
Lemma ProcessMouseMovement_zero (c : Camera) :
  -89 <= Pitch c <= 89 -> ProcessMouseMovement c 0 0 = updateCameraVectors c.
Proof.
  destruct c; simpl; intros H. unfold ProcessMouseMovement; simpl.
  rewrite !Rmult_0_l, !Rplus_0_r, constrain_pitch_id by exact H.
  reflexivity.
Qed.

(** [updateCameraVectors] overwrites the saved front, up and right vectors. *)
Lemma updateCameraVectors_load_pose (c d : Camera) :
  WorldUp d = WorldUp c -> MovementSpeed d = MovementSpeed c ->
  MouseSensitivity d = MouseSensitivity c -> Zoom d = Zoom c ->
  updateCameraVectors (load_pose d (pose_of c)) = updateCameraVectors c.
Proof.
  destruct c, d; simpl; intros -> -> -> ->. reflexivity.
Qed.

Lemma ProcessMouseMovement_keeps (c : Camera) (xo yo : R) :
  WorldUp (ProcessMouseMovement c xo yo) = WorldUp c /\
  MovementSpeed (ProcessMouseMovement c xo yo) = MovementSpeed c /\
  MouseSensitivity (ProcessMouseMovement c xo yo) = MouseSensitivity c /\
  Zoom (ProcessMouseMovement c xo yo) = Zoom c.
Proof. repeat split. Qed.

Lemma updateCameraVectors_front_y (c : Camera) :
  Pitch c = 0 -> vy (Front (updateCameraVectors c)) = 0.
Proof.
  intros H. unfold updateCameraVectors; simpl. rewrite H, radians_0, sin_0. ring.
Qed.

(** ** Projection toggle round trip *)

(** C2: from the state the constructor leaves, toggling to orthographic
    and back does not restore the front vector the perspective slot
    saved: the constructor sets it to (0,-0.5,-2) directly, and the
    zero-offset [ProcessMouseMovement] of [SwitchToPerspective]
    overwrites the loaded front with one recomputed from yaw/pitch,
    whose vertical component is 0. *)
Lemma toggle_roundtrip_front_not_restored :
  Front (cam (SwitchToPerspective (SwitchToOrthographic ViewManager_init)))
  <> Front (cam ViewManager_init).
Proof.
  intros H. apply (f_equal vy) in H. revert H.
  cbn [SwitchToPerspective SwitchToOrthographic ViewManager_init cam
       bOrthographicProjection cameraStatesInitialized negb andb perspective].
  rewrite ProcessMouseMovement_zero.
  2: { cbn. lra. }
  rewrite updateCameraVectors_front_y by reflexivity.
  cbn. lra.
Qed.

(** ** What a toggle saves and loads *)

Lemma clamp_speed_id (s : R) : MIN_CAMERA_SPEED <= s <= MAX_CAMERA_SPEED -> clamp_speed s = s.
Proof.
  unfold clamp_speed, MIN_CAMERA_SPEED, MAX_CAMERA_SPEED; intros H.
  destruct (Rlt_dec s 0.5); [lra|]. destruct (Rlt_dec 10 s); [lra|reflexivity].
Qed.

(** C3 (counterexample): movement speed is not part of the saved poses.
    Entering orthographic mode, scrolling up by 2 there and going back to
    perspective leaves the speed at 3.5; a wholesale swap of the poses
    would have restored the perspective speed 2.5 saved on entry. *)
Lemma toggle_does_not_swap_speed :
  MovementSpeed (cam (SwitchToPerspective
    (Mouse_Scroll_Callback (SwitchToOrthographic ViewManager_init) 0 2)))
  <> MovementSpeed (cam ViewManager_init).
Proof.
  cbn [SwitchToPerspective SwitchToOrthographic Mouse_Scroll_Callback ViewManager_init
       cam bOrthographicProjection cameraStatesInitialized gCameraSpeed negb andb
       ProcessMouseMovement updateCameraVectors load_pose MovementSpeed Camera_default].
  rewrite clamp_speed_id by (unfold MIN_CAMERA_SPEED, MAX_CAMERA_SPEED; lra).
  lra.
Qed.

(** C3 (amended): a toggle saves position, front, up, yaw and pitch of
    the live camera into the outgoing mode's slot, loads the incoming
    slot into the camera and recomputes front, up and right from the
    loaded yaw and pitch; zoom and movement speed are not in the slots
    and stay as they were. *)
Theorem toggle_saves_and_loads_pose (st : ViewState) :
  cameraStatesInitialized st = true ->
  -89 <= pPitch (orthographic st) <= 89 ->
  -89 <= pPitch (perspective st) <= 89 ->
  (bOrthographicProjection st = false ->
   let st' := SwitchToOrthographic st in
   bOrthographicProjection st' = true /\
   perspective st' = pose_of (cam st) /\ orthographic st' = orthographic st /\
   cam st' = updateCameraVectors (load_pose (cam st) (orthographic st)) /\
   Zoom (cam st') = Zoom (cam st) /\ MovementSpeed (cam st') = MovementSpeed (cam st) /\
   gCameraSpeed st' = gCameraSpeed st) /\
  (bOrthographicProjection st = true ->
   let st' := SwitchToPerspective st in
   bOrthographicProjection st' = false /\
   orthographic st' = pose_of (cam st) /\ perspective st' = perspective st /\
   cam st' = updateCameraVectors (load_pose (cam st) (perspective st)) /\
   Zoom (cam st') = Zoom (cam st) /\ MovementSpeed (cam st') = MovementSpeed (cam st) /\
   gCameraSpeed st' = gCameraSpeed st).
Proof.
  intros Hinit Ho Hp. split; intros Hmode.
  - unfold SwitchToOrthographic. rewrite Hinit, Hmode. cbn [negb andb].
    rewrite ProcessMouseMovement_zero by exact Ho.
    repeat split; reflexivity.
  - unfold SwitchToPerspective. rewrite Hinit, Hmode. cbn [andb].
    rewrite ProcessMouseMovement_zero by exact Hp.
    repeat split; reflexivity.
Qed.

(** ** Repeated switch to orthographic *)

(** C8: a second [SwitchToOrthographic] right after a first one changes
    nothing. *)
Theorem SwitchToOrthographic_idempotent (st : ViewState) :
  SwitchToOrthographic (SwitchToOrthographic st) = SwitchToOrthographic st.
Proof.
  unfold SwitchToOrthographic.
  destruct (negb (bOrthographicProjection st) && cameraStatesInitialized st) eqn:E.
  - cbn [bOrthographicProjection negb andb]. reflexivity.
  - rewrite E. reflexivity.
Qed.

(** ** Scroll speed *)

Lemma clamp_speed_bounds (s : R) :
  MIN_CAMERA_SPEED <= clamp_speed s <= MAX_CAMERA_SPEED.
Proof.
  unfold clamp_speed, MIN_CAMERA_SPEED, MAX_CAMERA_SPEED.
  destruct (Rlt_dec s 0.5); [lra|]. destruct (Rlt_dec 10 s); lra.
Qed.

Lemma scroll_speeds_bounded (st : ViewState) (deltas : list R) :
  Forall (fun s => 0.5 <= s <= 10) (scroll_speeds st deltas).
Proof.
  revert st; induction deltas as [|d rest IH]; intros st; simpl; constructor.
  - apply clamp_speed_bounds.
  - apply IH.
Qed.

(** C7: each scroll adds half the vertical delta to the speed, clamps
    the sum to [0.5, 10] and hands the result to the camera; so from the
    initial speed every speed along any sequence of deltas lies in
    [0.5, 10]. *)
Theorem scroll_speed_in_bounds :
  (forall st xOffset yOffset,
     let st' := Mouse_Scroll_Callback st xOffset yOffset in
     gCameraSpeed st' = clamp_speed (gCameraSpeed st + yOffset * 0.5) /\
     MovementSpeed (cam st') = gCameraSpeed st' /\
     0.5 <= gCameraSpeed st' <= 10) /\
  (forall deltas, Forall (fun s => 0.5 <= s <= 10) (scroll_speeds ViewManager_init deltas)).
Proof.
  split.
  - intros st xOffset yOffset. cbn. repeat split; try reflexivity; apply clamp_speed_bounds.
  - intros deltas. apply scroll_speeds_bounded.
Qed.

(** ** Mouse position *)

Lemma round_binary_id (prec emin : Z) (d : dyadic) :
  (0 < prec)%Z -> (Z.abs (mant d) < 2 ^ prec)%Z -> (emin <= expo d)%Z ->
  round_binary prec emin d = d.
Proof.
  intros Hp Hm He. unfold round_binary.
  destruct (Z.eqb_spec (mant d) 0) as [_|Hz]; [reflexivity|].
  assert (Hl : (Z.log2 (Z.abs (mant d)) < prec)%Z) by (apply Z.log2_lt_pow2; lia).
  cbv zeta.
  destruct (Z.leb_spec (Z.max (Z.log2 (Z.abs (mant d)) + 1 - prec) (emin - expo d)) 0)
    as [_|H]; [reflexivity|lia].
Qed.

Lemma round_binary_zero (prec emin : Z) (d : dyadic) :
  mant d = 0%Z -> round_binary prec emin d = d.
Proof. intros H. unfold round_binary. rewrite H. reflexivity. Qed.

Lemma to_float_fits (d : dyadic) : fits_float d = true -> to_float d = d.
Proof.
  unfold fits_float. intros H.
  apply andb_true_iff in H as [H _]. apply andb_true_iff in H as [Hm He].
  apply Z.ltb_lt in Hm. apply Z.leb_le in He.
  apply round_binary_id; [lia | change (2 ^ 24)%Z with 16777216%Z; exact Hm | exact He].
Qed.

Lemma dsub_self (d : dyadic) : mant (dsub d d) = 0%Z.
Proof. unfold dsub. cbn [mant]. ring. Qed.

Lemma dval_mant_0 (d : dyadic) : mant d = 0%Z -> dval d = 0.
Proof. intros H. unfold dval. rewrite H. cbn [IZR]. ring. Qed.

Lemma first_offset_zero (d : dyadic) :
  fits_float d = true ->
  dval (to_float (to_double (dsub d (to_float d)))) = 0 /\
  dval (to_float (to_double (dsub (to_float d) d))) = 0.
Proof.
  intros H. rewrite (to_float_fits d H).
  unfold to_float, to_double.
  rewrite !(round_binary_zero _ _ (dsub d d)) by apply dsub_self.
  split; apply dval_mant_0, dsub_self.
Qed.

(** C9 (amended): [Mouse_Position_Callback] records the coordinates
    narrowed to [float] and forwards [float(x - lastX)] and
    [float(lastY - y)], where [lastX], [lastY] are the just-narrowed
    coordinates on the first call and the recorded ones afterwards; on
    the first call both offsets are 0 whenever the coordinates are
    representable as [float]. *)
Theorem Mouse_Position_offsets_float (st : ViewState) (xMousePos yMousePos : dyadic) :
  let lastX := if gFirstMouse st then to_float xMousePos else gLastX st in
  let lastY := if gFirstMouse st then to_float yMousePos else gLastY st in
  let (st', offsets) := Mouse_Position_Callback st xMousePos yMousePos in
  offsets = (to_float (to_double (dsub xMousePos lastX)),
             to_float (to_double (dsub lastY yMousePos))) /\
  cam st' = ProcessMouseMovement (cam st) (dval (fst offsets)) (dval (snd offsets)) /\
  gLastX st' = to_float xMousePos /\ gLastY st' = to_float yMousePos /\
  gFirstMouse st' = false /\
  (gFirstMouse st = true -> fits_float xMousePos = true -> fits_float yMousePos = true ->
   dval (fst offsets) = 0 /\ dval (snd offsets) = 0).
Proof.
  cbv zeta. unfold Mouse_Position_Callback.
  destruct (gFirstMouse st); cbv beta iota zeta;
    cbn [fst snd cam gLastX gLastY gFirstMouse].
  - do 5 (split; [reflexivity|]). intros _ Hx Hy.
    split; [apply (first_offset_zero _ Hx) | apply (first_offset_zero _ Hy)].
  - do 5 (split; [reflexivity|]). intros H. discriminate H.
Qed.

(** C9 (counterexample): with the cursor first reported at x = 0.1 (the
    nearest [double]), the first call forwards the non-zero horizontal
    offset [float(0.1 - 0.1f)] = -13421773 * 2^-53 (about -1.49e-9). *)
Lemma Mouse_Position_first_offset_nonzero :
  let offsets := snd (Mouse_Position_Callback ViewManager_init double_0_1 (mkdyadic 300 0)) in
  fst offsets = mkdyadic (-13421773) (-53) /\ dval (fst offsets) <> 0.
Proof.
  cbv zeta.
  change (fst (snd (Mouse_Position_Callback ViewManager_init double_0_1 (mkdyadic 300 0))))
    with (to_float (to_double (dsub double_0_1 (to_float double_0_1)))).
  assert (E : to_float (to_double (dsub double_0_1 (to_float double_0_1)))
              = mkdyadic (-13421773) (-53)) by (vm_compute; reflexivity).
  rewrite E. split; [reflexivity|].
  unfold dval; cbn [mant expo].
  apply Rmult_integral_contrapositive_currified.
  - apply not_0_IZR. discriminate.
  - apply powerRZ_NOR. lra.
Qed.

(** * Witnesses: the theorems with hypotheses at concrete inputs *)

(** The "grass"-only catalog queried with "stone": [FindMaterial]
    reports found. *)
Lemma FindMaterial_miss_reports_found_witness :
  m_objectMaterials (scene_with_grass true) <> [] /\
  FindMaterial (scene_with_grass true) "stone" zero_material = (true, zero_material).
Proof.
  split; [discriminate|].
  apply FindMaterial_miss_reports_found; [discriminate|].
  repeat constructor. cbn. discriminate.
Defined.

(** The same lookup miss through [SetShaderMaterial] uploads the five
    uniforms of the uninitialised local. *)
Lemma SetShaderMaterial_miss_uploads_witness :
  shader_present (scene_with_grass true) = true /\
  SetShaderMaterial (scene_with_grass true) "stone" zero_material
  = Uploads (material_uploads zero_material).
Proof.
  split; [reflexivity|].
  apply SetShaderMaterial_miss_uploads; [reflexivity | discriminate |].
  repeat constructor. cbn. discriminate.
Defined.

Lemma null_shader_guards_witness :
  SetShaderColor (scene_with_grass false) 1 1 1 1 = Uploads [] /\
  SetShaderTexture (scene_with_grass false) "grass" = Uploads [] /\
  SetShaderMaterial (scene_with_grass false) "grass" zero_material = NullShaderDeref.
Proof.
  destruct (null_shader_guards (scene_with_grass false) eq_refl) as (_ & HC & HT & _ & HM).
  split; [apply HC|]. split; [apply HT|].
  apply HM; [discriminate | reflexivity].
Defined.

Lemma toggle_saves_and_loads_pose_witness :
  bOrthographicProjection (SwitchToOrthographic ViewManager_init) = true /\
  perspective (SwitchToOrthographic ViewManager_init) = pose_of (cam ViewManager_init).
Proof.
  destruct (toggle_saves_and_loads_pose ViewManager_init eq_refl) as [H _];
    [cbn; lra | cbn; lra |].
  destruct (H eq_refl) as (H1 & H2 & _). split; [exact H1 | exact H2].
Defined.

(** * Further properties of the catalog and scene code *)

(** ** Texture lookups *)

Lemma find_texture_from_cases (l : list TEXTURE_INFO) (tag : string) (n : nat) :
  (find_texture_slot_from l tag (Z.of_nat n) = (-1)%Z /\ find_texture_id_from l tag = (-1)%Z) \/
  (exists k t, find_texture_slot_from l tag (Z.of_nat n) = Z.of_nat (n + k) /\
               nth_error l k = Some t /\ ttag t = tag /\
               find_texture_id_from l tag = ID t /\
               Forall (fun x => ttag x <> tag) (firstn k l)).
Proof.
  revert n; induction l as [|t rest IH]; intros n; simpl; [left; auto|].
  destruct (String.eqb_spec (ttag t) tag) as [Heq|Hne].
  - right. exists 0%nat, t. repeat split; auto; f_equal; lia.
  - replace (Z.of_nat n + 1)%Z with (Z.of_nat (S n)) by lia.
    destruct (IH (S n)) as [H|(k & t' & H1 & H2 & H3 & H4 & H5)]; [left; exact H|].
    right. exists (S k), t'. repeat split; auto.
    + rewrite H1. f_equal; lia.
    + simpl. constructor; assumption.
Qed.

Lemma find_texture_slot_from_app (l l' : list TEXTURE_INFO) (tag : string) (i : Z) :
  find_texture_slot_from (l ++ l') tag i =
  if existsb (fun t => String.eqb (ttag t) tag) l then find_texture_slot_from l tag i
  else find_texture_slot_from l' tag (i + Z.of_nat (List.length l)).
Proof.
  revert i; induction l as [|t rest IH]; intros i; simpl.
  - f_equal; lia.
  - destruct (String.eqb (ttag t) tag); simpl; [reflexivity|].
    rewrite IH. destruct (existsb _ rest); [reflexivity|]. f_equal; lia.
Qed.

Lemma find_texture_id_from_app (l l' : list TEXTURE_INFO) (tag : string) :
  find_texture_id_from (l ++ l') tag =
  if existsb (fun t => String.eqb (ttag t) tag) l then find_texture_id_from l tag
  else find_texture_id_from l' tag.
Proof.
  induction l as [|t rest IH]; simpl; [reflexivity|].
  destruct (String.eqb (ttag t) tag); simpl; [reflexivity | exact IH].
Qed.

Lemma find_texture_slot_from_found (l : list TEXTURE_INFO) (tag : string) (i : Z) :
  existsb (fun t => String.eqb (ttag t) tag) l = true -> (i <= find_texture_slot_from l tag i)%Z.
Proof.
  revert i; induction l as [|t rest IH]; intros i; simpl; [discriminate|].
  destruct (String.eqb (ttag t) tag); simpl; intros H; [lia|].
  specialize (IH (i + 1)%Z H). lia.
Qed.

(** X1: [FindTextureID] and [FindTextureSlot] agree: both are -1 for an
    absent tag, and otherwise the slot is the index of an entry with
    that tag, no earlier entry has it, and [FindTextureID] is that
    entry's name. *)
Theorem FindTextureID_matches_slot (sm : SceneManager) (tag : string) :
  (FindTextureSlot sm tag = (-1)%Z /\ FindTextureID sm tag = (-1)%Z) \/
  (exists t, (0 <= FindTextureSlot sm tag)%Z /\
             nth_error (m_textureIDs sm) (Z.to_nat (FindTextureSlot sm tag)) = Some t /\
             ttag t = tag /\ FindTextureID sm tag = ID t /\
             Forall (fun x => ttag x <> tag)
                    (firstn (Z.to_nat (FindTextureSlot sm tag)) (m_textureIDs sm))).
Proof.
  unfold FindTextureSlot, FindTextureID.
  destruct (find_texture_from_cases (m_textureIDs sm) tag 0) as [H|(k & t & H1 & H2 & H3 & H4 & H5)];
    [left; exact H|].
  right. exists t. simpl in H1. rewrite H1, Nat2Z.id. repeat split; auto. lia.
Qed.

Lemma nth_error_bind_textures (l : list TEXTURE_INFO) (n k : nat) :
  nth_error (bind_textures_from l (Z.of_nat n)) k =
  option_map (fun t => (Z.of_nat (n + k), ID t)) (nth_error l k).
Proof.
  revert n k; induction l as [|t rest IH]; intros n k; [destruct k; reflexivity|].
  destruct k as [|k]; simpl.
  - do 2 f_equal. lia.
  - replace (Z.of_nat n + 1)%Z with (Z.of_nat (S n)) by lia.
    rewrite IH. destruct (nth_error rest k); simpl; [|reflexivity].
    do 3 f_equal. lia.
Qed.

(** X2: after [BindGLTextures], the texture unit [FindTextureSlot]
    returns for a present tag (the unit [SetShaderTexture] uploads) is
    bound to the name [FindTextureID] returns for that tag. *)
Theorem BindGLTextures_slot_holds_texture (sm : SceneManager) (tag : string) :
  (0 <= FindTextureSlot sm tag)%Z ->
  nth_error (BindGLTextures sm) (Z.to_nat (FindTextureSlot sm tag)) =
  Some (FindTextureSlot sm tag, FindTextureID sm tag).
Proof.
  intros Hpos. unfold BindGLTextures, FindTextureSlot, FindTextureID in *.
  destruct (find_texture_from_cases (m_textureIDs sm) tag 0) as [[H _]|(k & t & H1 & H2 & H3 & H4 & _)];
    simpl in *; [lia|].
  rewrite H1, Nat2Z.id. change 0%Z with (Z.of_nat 0).
  rewrite nth_error_bind_textures, H2. simpl. rewrite H4. reflexivity.
Qed.

(** ** Loading textures *)

Lemma CreateGLTexture_supported (sm : SceneManager) (decoded : option stbi_image) (tag : string) :
  decodes_supported decoded = true ->
  CreateGLTexture sm decoded tag =
  (true, {| shader_present := shader_present sm;
            m_textureIDs := (m_textureIDs sm ++ [mkTEXTURE_INFO (next_gl_name sm) tag])%list;
            m_objectMaterials := m_objectMaterials sm;
            next_gl_name := (next_gl_name sm + 1)%Z |}).
Proof. destruct decoded as [image|]; simpl; [intros ->; reflexivity | discriminate]. Qed.

Lemma CreateGLTexture_textures (sm : SceneManager) (decoded : option stbi_image) (tag : string) :
  m_textureIDs (snd (CreateGLTexture sm decoded tag)) =
  if decodes_supported decoded
  then (m_textureIDs sm ++ [mkTEXTURE_INFO (next_gl_name sm) tag])%list
  else m_textureIDs sm.
Proof.
  destruct decoded as [image|]; simpl; [|reflexivity].
  destruct ((colorChannels image =? 3)%Z || (colorChannels image =? 4)%Z)%bool; reflexivity.
Qed.

Lemma existsb_of_slot (l : list TEXTURE_INFO) (tag : string) :
  find_texture_slot_from l tag 0 = (-1)%Z ->
  existsb (fun t => String.eqb (ttag t) tag) l = false.
Proof.
  intros H. destruct (existsb _ l) eqn:E; [|reflexivity].
  pose proof (find_texture_slot_from_found l tag 0 E). lia.
Qed.

(** X3: loading an image that decodes with 3 or 4 channels under a tag
    the catalog lacks makes the tag resolve to the texture unit equal to
    the previous [m_loadedTextures], and to the newly generated name. *)
Theorem CreateGLTexture_then_find (sm : SceneManager) (decoded : option stbi_image)
    (tag : string) :
  decodes_supported decoded = true ->
  FindTextureSlot sm tag = (-1)%Z ->
  let sm' := snd (CreateGLTexture sm decoded tag) in
  FindTextureSlot sm' tag = Z.of_nat (m_loadedTextures sm) /\
  FindTextureID sm' tag = next_gl_name sm.
Proof.
  intros Hsup Habs. unfold FindTextureSlot, FindTextureID, m_loadedTextures in *.
  rewrite CreateGLTexture_textures, Hsup.
  rewrite find_texture_slot_from_app, find_texture_id_from_app, (existsb_of_slot _ _ Habs).
  simpl. rewrite String.eqb_refl. split; [lia | reflexivity].
Qed.

(** X4: [CreateGLTexture] never moves a tag that already resolves: its
    texture unit and name stay the same whatever the call does, also
    when the new texture carries the same tag (the first entry wins). *)
Theorem CreateGLTexture_keeps_lookups (sm : SceneManager) (decoded : option stbi_image)
    (tag tag' : string) :
  (0 <= FindTextureSlot sm tag')%Z ->
  let sm' := snd (CreateGLTexture sm decoded tag) in
  FindTextureSlot sm' tag' = FindTextureSlot sm tag' /\
  FindTextureID sm' tag' = FindTextureID sm tag'.
Proof.
  intros Hpos. unfold FindTextureSlot, FindTextureID in *.
  assert (E : existsb (fun t => String.eqb (ttag t) tag') (m_textureIDs sm) = true).
  { destruct (existsb _ _) eqn:E; [reflexivity|].
    rewrite (find_texture_slot_from_absent _ _) in Hpos; [lia|].
    apply Forall_forall. intros x Hx Heq.
    assert (existsb (fun t => String.eqb (ttag t) tag') (m_textureIDs sm) = true) as C
      by (apply existsb_exists; exists x; split; [exact Hx | apply String.eqb_eq; exact Heq]).
    congruence. }
  rewrite CreateGLTexture_textures. destruct (decodes_supported decoded); [|auto].
  rewrite find_texture_slot_from_app, find_texture_id_from_app, E. auto.
Qed.

(** X5: after a sequence of [CreateGLTexture] calls (as in
    [LoadSceneTextures]) the catalog's tags are the previous ones
    followed by the tags of exactly the calls whose image decoded with 3
    or 4 channels, in call order; failed loads leave no entry, so later
    textures take their units. *)
Theorem load_textures_tags (sm : SceneManager) (reqs : list (option stbi_image * string)) :
  map ttag (m_textureIDs (load_textures sm reqs)) =
  (map ttag (m_textureIDs sm) ++
   map snd (filter (fun r => decodes_supported (fst r)) reqs))%list.
Proof.
  revert sm; induction reqs as [|[decoded tag] rest IH]; intros sm; simpl.
  - rewrite app_nil_r. reflexivity.
  - rewrite IH, CreateGLTexture_textures.
    destruct (decodes_supported decoded); simpl.
    + rewrite map_app, <- app_assoc. reflexivity.
    + reflexivity.
Qed.

(** ** DestroyGLTextures *)

Lemma regenerate_names_shape (l : list TEXTURE_INFO) (gen : nat -> Z) (k : nat) :
  map ttag (regenerate_names l gen k) = map ttag l /\
  map ID (regenerate_names l gen k) = map gen (seq k (List.length l)).
Proof.
  revert k; induction l as [|t rest IH]; intros k; simpl; [auto|].
  destruct (IH (S k)) as [H1 H2]. rewrite H1, H2. auto.
Qed.

Lemma find_texture_slot_from_tags (l l' : list TEXTURE_INFO) (tag : string) (i : Z) :
  map ttag l = map ttag l' -> find_texture_slot_from l tag i = find_texture_slot_from l' tag i.
Proof.
  revert l' i; induction l as [|t rest IH]; intros [|t' rest'] i H; simpl in *;
    try discriminate; [reflexivity|].
  injection H as Ht Hr. rewrite Ht. destruct (String.eqb _ _); [reflexivity|]. apply IH, Hr.
Qed.

(** X6: [DestroyGLTextures] releases nothing: whatever names
    [glGenTextures] returns, the catalog keeps all [m_loadedTextures]
    entries and their tags (so every tag keeps its unit), and entry [k]
    is overwritten with the name the [k]-th [glGenTextures] call returns. *)
Theorem DestroyGLTextures_regenerates (sm : SceneManager) (gen : nat -> Z) :
  let sm' := DestroyGLTextures sm gen in
  m_loadedTextures sm' = m_loadedTextures sm /\
  map ttag (m_textureIDs sm') = map ttag (m_textureIDs sm) /\
  (forall tag, FindTextureSlot sm' tag = FindTextureSlot sm tag) /\
  map ID (m_textureIDs sm') = map gen (seq 0 (m_loadedTextures sm)).
Proof.
  destruct (regenerate_names_shape (m_textureIDs sm) gen 0) as [H1 H2].
  unfold m_loadedTextures, FindTextureSlot, DestroyGLTextures; simpl.
  repeat split; auto.
  - rewrite <- (length_map ttag), H1, length_map. reflexivity.
  - intros tag. apply find_texture_slot_from_tags, H1.
Qed.

(** ** Material upload on a hit *)

Lemma find_material_loop_hit (pre post : list OBJECT_MATERIAL) (m : OBJECT_MATERIAL)
    (tag : string) (material : OBJECT_MATERIAL) :
  Forall (fun x => mtag x <> tag) pre -> mtag m = tag ->
  material_uploads (find_material_loop (pre ++ m :: post) tag material) = material_uploads m.
Proof.
  intros Hpre Hm. induction Hpre as [|x rest Hx _ IH]; simpl.
  - rewrite (proj2 (String.eqb_eq _ _) Hm). reflexivity.
  - destruct (String.eqb_spec (mtag x) tag); [contradiction | exact IH].
Qed.

(** X7: with a shader manager, [SetShaderMaterial] on a tag the catalog
    holds uploads the five coefficients of the first entry carrying that
    tag, whatever the uninitialised local held. *)
Theorem SetShaderMaterial_hit_uploads (sm : SceneManager) (pre post : list OBJECT_MATERIAL)
    (m : OBJECT_MATERIAL) (tag : string) (uninit : OBJECT_MATERIAL) :
  shader_present sm = true ->
  m_objectMaterials sm = (pre ++ m :: post)%list ->
  Forall (fun x => mtag x <> tag) pre -> mtag m = tag ->
  SetShaderMaterial sm tag uninit = Uploads (material_uploads m).
Proof.
  intros Hsh Hcat Hpre Hm. unfold SetShaderMaterial, FindMaterial.
  rewrite Hcat, Hsh. destruct pre as [|p pre']; simpl.
  - rewrite (proj2 (String.eqb_eq _ _) Hm). reflexivity.
  - rewrite <- (find_material_loop_hit (p :: pre') post m tag uninit Hpre Hm). reflexivity.
Qed.

(** ** The shipped scene *)

(** X8: when the five image files decode with 3 or 4 channels,
    [LoadSceneTextures] followed by [DefineObjectMaterials] on empty
    catalogs gives textures grass, dirt, brick, hedge and foliage on
    units 0 to 4, and every [SetShaderMaterial] and [SetShaderTexture]
    of [RenderScene] resolves its tag (no material lookup miss, no
    sampler unit -1). *)
Theorem scene_tags_resolve (sm0 : SceneManager) (stbi : string -> option stbi_image) :
  m_textureIDs sm0 = [] -> m_objectMaterials sm0 = [] ->
  decodes_supported (stbi "textures/plants_grass_seamless.jpg") = true ->
  decodes_supported (stbi "textures/dirt.jpg") = true ->
  decodes_supported (stbi "textures/brick.jpg") = true ->
  decodes_supported (stbi "textures/plants_hedge_seamless.jpg") = true ->
  decodes_supported (stbi "textures/foliage.jpg") = true ->
  let sm := DefineObjectMaterials (fst (LoadSceneTextures sm0 stbi)) in
  map (fun tag => FindTextureSlot sm tag) ["grass"; "dirt"; "brick"; "hedge"; "foliage"]
  = [0; 1; 2; 3; 4]%Z /\
  forallb (call_resolves sm) RenderScene_calls = true.
Proof.
  intros Ht Hm H1 H2 H3 H4 H5.
  unfold LoadSceneTextures. cbn [fst load_textures].
  rewrite (CreateGLTexture_supported _ _ _ H1). cbn [snd].
  rewrite (CreateGLTexture_supported _ _ _ H2). cbn [snd].
  rewrite (CreateGLTexture_supported _ _ _ H3). cbn [snd].
  rewrite (CreateGLTexture_supported _ _ _ H4). cbn [snd].
  rewrite (CreateGLTexture_supported _ _ _ H5). cbn [snd].
  unfold DefineObjectMaterials. cbn [m_textureIDs m_objectMaterials].
  rewrite Ht, Hm. split; reflexivity.
Qed.

(** ** Keyboard handling *)

Lemma SwitchToPerspective_mode (v : ViewState) :
  cameraStatesInitialized v = true ->
  bOrthographicProjection (SwitchToPerspective v) = false /\
  cameraStatesInitialized (SwitchToPerspective v) = true.
Proof.
  intros H. unfold SwitchToPerspective. rewrite H.
  destruct (bOrthographicProjection v) eqn:E; simpl; auto.
Qed.

Lemma SwitchToOrthographic_mode (v : ViewState) :
  cameraStatesInitialized v = true ->
  bOrthographicProjection (SwitchToOrthographic v) = true /\
  cameraStatesInitialized (SwitchToOrthographic v) = true.
Proof.
  intros H. unfold SwitchToOrthographic. rewrite H.
  destruct (bOrthographicProjection v) eqn:E; simpl; auto.
Qed.

(** X9: the projection toggles of [ProcessKeyboardEvents] are
    edge-triggered: O switches to orthographic only on a frame where it
    is down and was up the frame before, P likewise to perspective, O
    wins when both go down in the same frame (it is handled last), and
    a held key changes nothing; the frame records the keys' states for
    the next one. *)
Theorem ProcessKeyboardEvents_mode (fs : FrameState) (keys : Keys) :
  cameraStatesInitialized (view fs) = true ->
  let fs' := ProcessKeyboardEvents fs keys in
  bOrthographicProjection (view fs') =
    (if key_o keys && negb (oKeyWasPressed fs) then true
     else if key_p keys && negb (pKeyWasPressed fs) then false
     else bOrthographicProjection (view fs)) /\
  pKeyWasPressed fs' = key_p keys /\ oKeyWasPressed fs' = key_o keys /\
  cameraStatesInitialized (view fs') = true.
Proof.
  intros Hinit. unfold ProcessKeyboardEvents. cbn zeta.
  set (v := set_cam (view fs) _).
  assert (Hv : cameraStatesInitialized v = true) by exact Hinit.
  assert (Hm : bOrthographicProjection v = bOrthographicProjection (view fs)) by reflexivity.
  clearbody v. cbn [view pKeyWasPressed oKeyWasPressed].
  destruct (key_p keys && negb (pKeyWasPressed fs));
  destruct (key_o keys && negb (oKeyWasPressed fs)).
  - destruct (SwitchToPerspective_mode v Hv) as [_ H].
    destruct (SwitchToOrthographic_mode _ H). auto.
  - destruct (SwitchToPerspective_mode v Hv). auto.
  - destruct (SwitchToOrthographic_mode v Hv). auto.
  - auto.
Qed.

Lemma move_if_camera_at (b : bool) (c : Camera) (direction : Camera_Movement) (dt : R) :
  move_if b c direction dt =
  camera_at c
    (vec3_add (Position c)
       (vec3_scale (b2R b * (MovementSpeed c * dt))
          (match direction with
           | FORWARD => Front c | BACKWARD => vec3_scale (-1) (Front c)
           | RIGHT => Right c | LEFT => vec3_scale (-1) (Right c)
           | UP => Up c | DOWN => vec3_scale (-1) (Up c)
           end))).
Proof.
  destruct c as [P F U Rt WU Y Pt S Ms Z]. destruct P as [p1 p2 p3], F as [f1 f2 f3], U as [u1 u2 u3], Rt as [r1 r2 r3].
  unfold move_if, ProcessKeyboard, camera_at, b2R, vec3_sub, vec3_add, vec3_scale.
  destruct b, direction; cbn [Position Front Up Right MovementSpeed vx vy vz];
    f_equal; f_equal; ring.
Qed.

Lemma camera_at_camera_at (c : Camera) (p q : vec3) :
  camera_at (camera_at c p) q = camera_at c q.
Proof. reflexivity. Qed.

Lemma camera_at_Position (c : Camera) (p : vec3) : Position (camera_at c p) = p.
Proof. reflexivity. Qed.

Lemma camera_at_Front (c : Camera) (p : vec3) : Front (camera_at c p) = Front c.
Proof. reflexivity. Qed.

Lemma camera_at_Right (c : Camera) (p : vec3) : Right (camera_at c p) = Right c.
Proof. reflexivity. Qed.

Lemma camera_at_Up (c : Camera) (p : vec3) : Up (camera_at c p) = Up c.
Proof. reflexivity. Qed.

Lemma camera_at_MovementSpeed (c : Camera) (p : vec3) :
  MovementSpeed (camera_at c p) = MovementSpeed c.
Proof. reflexivity. Qed.

(** X10: on a frame where neither toggle key goes down, the keys only
    translate the camera: by [MovementSpeed * gDeltaTime] along the
    front vector for W minus S, the right vector for D minus A and the
    up vector for Q minus E, with orientation, zoom, speed and the rest
    of the view state unchanged. *)
Theorem ProcessKeyboardEvents_moves (fs : FrameState) (keys : Keys) :
  key_p keys && negb (pKeyWasPressed fs) = false ->
  key_o keys && negb (oKeyWasPressed fs) = false ->
  let c := cam (view fs) in
  let v := MovementSpeed c * gDeltaTime fs in
  view (ProcessKeyboardEvents fs keys) =
  set_cam (view fs)
    (camera_at c
       (vec3_add (Position c)
          (vec3_add (vec3_scale ((b2R (key_w keys) - b2R (key_s keys)) * v) (Front c))
             (vec3_add (vec3_scale ((b2R (key_d keys) - b2R (key_a keys)) * v) (Right c))
                (vec3_scale ((b2R (key_q keys) - b2R (key_e keys)) * v) (Up c)))))).
Proof.
  intros Hp Ho. unfold ProcessKeyboardEvents. cbn zeta. rewrite Hp, Ho.
  cbn [view]. f_equal.
  rewrite !move_if_camera_at.
  rewrite ?camera_at_camera_at, ?camera_at_Position, ?camera_at_Front,
    ?camera_at_Right, ?camera_at_Up, ?camera_at_MovementSpeed.
  f_equal.
  generalize (b2R (key_w keys)) (b2R (key_s keys)) (b2R (key_a keys))
    (b2R (key_d keys)) (b2R (key_q keys)) (b2R (key_e keys)).
  intros w s a d q e.
  destruct (Position (cam (view fs))) as [p1 p2 p3], (Front (cam (view fs))) as [f1 f2 f3],
    (Right (cam (view fs))) as [r1 r2 r3], (Up (cam (view fs))) as [u1 u2 u3].
  unfold vec3_add, vec3_scale. cbn [vx vy vz].
  f_equal; ring.
Qed.

(** ** Mouse moves *)

Lemma int_coord_spec (d : dyadic) :
  int_coord d = true -> expo d = 0%Z /\ (Z.abs (mant d) < 8388608)%Z.
Proof.
  unfold int_coord. intros H. apply andb_true_iff in H as [He Hm].
  split; [apply Z.eqb_eq, He | apply Z.ltb_lt, Hm].
Qed.

Lemma to_float_int (d : dyadic) : int_coord d = true -> to_float d = d.
Proof.
  intros H. apply int_coord_spec in H as [He Hm].
  apply round_binary_id; [lia | change (2 ^ 24)%Z with 16777216%Z; lia | lia].
Qed.

Lemma dval_int (d : dyadic) : expo d = 0%Z -> dval d = IZR (mant d).
Proof. intros H. unfold dval. rewrite H. cbn [powerRZ]. ring. Qed.

Lemma offset_int (a b : dyadic) :
  int_coord a = true -> int_coord b = true ->
  dval (to_float (to_double (dsub a b))) = dval a - dval b.
Proof.
  intros Ha Hb. apply int_coord_spec in Ha as [Hae Ham]. apply int_coord_spec in Hb as [Hbe Hbm].
  assert (E : dsub a b = mkdyadic (mant a - mant b) 0).
  { unfold dsub. rewrite Hae, Hbe. cbn. f_equal. ring. }
  rewrite E. unfold to_float, to_double.
  rewrite (round_binary_id 53 (-1074)) by
    (cbn [mant expo]; try change (2 ^ 53)%Z with 9007199254740992%Z; lia).
  rewrite (round_binary_id 24 (-149)) by
    (cbn [mant expo]; try change (2 ^ 24)%Z with 16777216%Z; lia).
  rewrite (dval_int (mkdyadic _ _)), (dval_int a), (dval_int b) by first [reflexivity | assumption].
  cbn [mant]. apply minus_IZR.
Qed.

(** X11: for integer cursor positions (below 2^23 in magnitude, so that
    no narrowing to [float] rounds), the offsets [Mouse_Position_Callback]
    forwards add up: over any sequence of positions the horizontal
    offsets sum to the last position minus the reference one ([gLastX],
    or the first position when [gFirstMouse] is set) and the vertical
    offsets to the reference minus the last, so no cursor motion is lost
    or counted twice. *)
Theorem mouse_moves_offsets_sum (st : ViewState) (ps : list (dyadic * dyadic)) :
  (gFirstMouse st = false -> int_coord (gLastX st) = true /\ int_coord (gLastY st) = true) ->
  Forall (fun p => int_coord (fst p) = true /\ int_coord (snd p) = true) ps ->
  let (st', offs) := mouse_moves st ps in
  sum_R (map (fun o => dval (fst o)) offs) =
    dval (gLastX st') - dval (fst (reference_position st ps)) /\
  sum_R (map (fun o => dval (snd o)) offs) =
    dval (snd (reference_position st ps)) - dval (gLastY st').
Proof.
  revert st; induction ps as [|[x y] rest IH]; intros st Hst Hps.
  - unfold reference_position; simpl. destruct (gFirstMouse st); simpl; split; ring.
  - apply Forall_cons_iff in Hps as [[Hx Hy] Hrest]. cbn [fst snd] in Hx, Hy.
    cbn [mouse_moves].
    destruct (Mouse_Position_Callback st x y) as [st1 off] eqn:E.
    assert (Hoff : dval (fst off) = dval x - dval (fst (reference_position st ((x, y) :: rest))) /\
                   dval (snd off) = dval (snd (reference_position st ((x, y) :: rest))) - dval y /\
                   gLastX st1 = x /\ gLastY st1 = y /\ gFirstMouse st1 = false).
    { unfold Mouse_Position_Callback, reference_position in *.
      destruct (gFirstMouse st) eqn:F; injection E as <- <-; cbn [fst snd gLastX gLastY gFirstMouse].
      - rewrite (to_float_int x Hx), (to_float_int y Hy).
        repeat split; try reflexivity; apply offset_int; assumption.
      - destruct (Hst eq_refl) as [HX HY].
        rewrite (to_float_int x Hx), (to_float_int y Hy).
        repeat split; try reflexivity; apply offset_int; assumption. }
    destruct Hoff as (H1 & H2 & Hx1 & Hy1 & Hf).
    assert (Hst1 : gFirstMouse st1 = false -> int_coord (gLastX st1) = true /\ int_coord (gLastY st1) = true)
      by (rewrite Hx1, Hy1; auto).
    specialize (IH st1 Hst1 Hrest). destruct (mouse_moves st1 rest) as [st2 offs].
    unfold reference_position in IH at 1 2. rewrite Hf, Hx1, Hy1 in IH.
    destruct IH as [IH1 IH2]. cbn [map sum_R fold_right]. unfold sum_R in IH1, IH2.
    rewrite H1, H2, IH1, IH2. cbn [fst snd]. split; ring.
Qed.

(** ** Lossless round trip once the mouse has moved *)

Lemma constrain_pitch_range (p : R) : -89 <= constrain_pitch p <= 89.
Proof.
  unfold constrain_pitch.
  destruct (Rlt_dec 89 p); [lra|]. destruct (Rlt_dec p (-89)); lra.
Qed.

Lemma updateCameraVectors_idem (c : Camera) :
  updateCameraVectors (updateCameraVectors c) = updateCameraVectors c.
Proof. reflexivity. Qed.

Lemma roundtrip_cam (st : ViewState) :
  cameraStatesInitialized st = true ->
  bOrthographicProjection st = false ->
  -89 <= Pitch (cam st) <= 89 ->
  cam (SwitchToPerspective (SwitchToOrthographic st)) = updateCameraVectors (cam st).
Proof.
  intros Hinit Hpersp Hpitch.
  unfold SwitchToOrthographic. rewrite Hinit, Hpersp.
  set (mid := ProcessMouseMovement (load_pose (cam st) (orthographic st)) 0 0).
  destruct (ProcessMouseMovement_keeps (load_pose (cam st) (orthographic st)) 0 0)
    as (H1 & H2 & H3 & H4).
  fold mid in H1, H2, H3, H4.
  unfold SwitchToPerspective. cbn [negb andb bOrthographicProjection
    cameraStatesInitialized cam perspective].
  rewrite (ProcessMouseMovement_zero (load_pose mid (pose_of (cam st)))) by exact Hpitch.
  apply updateCameraVectors_load_pose; assumption.
Qed.

(** X12: once the mouse has moved (the camera's basis then follows its
    yaw and pitch), toggling perspective -> orthographic -> perspective
    gives back exactly the same camera. *)
Theorem roundtrip_exact_after_mouse_move (st : ViewState) (xMousePos yMousePos : dyadic) :
  cameraStatesInitialized st = true ->
  bOrthographicProjection st = false ->
  let st1 := fst (Mouse_Position_Callback st xMousePos yMousePos) in
  cam (SwitchToPerspective (SwitchToOrthographic st1)) = cam st1.
Proof.
  intros Hinit Hpersp. unfold Mouse_Position_Callback.
  destruct (gFirstMouse st); cbn [fst];
    (rewrite roundtrip_cam; [ | exact Hinit | exact Hpersp | exact (constrain_pitch_range _)]);
    cbn [cam]; unfold ProcessMouseMovement; apply updateCameraVectors_idem.
Qed.

(** * Witnesses of the further properties *)

Lemma BindGLTextures_slot_holds_texture_witness :
  nth_error (BindGLTextures (scene_with_grass true))
    (Z.to_nat (FindTextureSlot (scene_with_grass true) "grass")) =
  Some (FindTextureSlot (scene_with_grass true) "grass",
        FindTextureID (scene_with_grass true) "grass").
Proof.
  apply BindGLTextures_slot_holds_texture.
  apply Z.leb_le. vm_compute. reflexivity.
Defined.

Lemma CreateGLTexture_then_find_witness :
  let sm' := snd (CreateGLTexture (scene_with_grass true) (Some (mkstbi_image 512 512 3)) "dirt") in
  FindTextureSlot sm' "dirt" = Z.of_nat (m_loadedTextures (scene_with_grass true)) /\
  FindTextureID sm' "dirt" = next_gl_name (scene_with_grass true).
Proof.
  apply CreateGLTexture_then_find; vm_compute; reflexivity.
Defined.

Lemma CreateGLTexture_keeps_lookups_witness :
  let sm' := snd (CreateGLTexture (scene_with_grass true) (Some (mkstbi_image 512 512 3)) "dirt") in
  FindTextureSlot sm' "grass" = FindTextureSlot (scene_with_grass true) "grass" /\
  FindTextureID sm' "grass" = FindTextureID (scene_with_grass true) "grass".
Proof.
  apply CreateGLTexture_keeps_lookups.
  apply Z.leb_le. vm_compute. reflexivity.
Defined.

Lemma SetShaderMaterial_hit_uploads_witness :
  SetShaderMaterial (scene_with_grass true) "grass" zero_material =
  Uploads (material_uploads grass_material).
Proof.
  apply (SetShaderMaterial_hit_uploads (scene_with_grass true) [] [] grass_material).
  - reflexivity.
  - reflexivity.
  - constructor.
  - reflexivity.
Defined.

Lemma scene_tags_resolve_witness :
  let sm := DefineObjectMaterials
              (fst (LoadSceneTextures (mkSceneManager true [] [] 1)
                      (fun _ => Some (mkstbi_image 512 512 3)))) in
  map (fun tag => FindTextureSlot sm tag) ["grass"; "dirt"; "brick"; "hedge"; "foliage"]
  = [0; 1; 2; 3; 4]%Z /\
  forallb (call_resolves sm) RenderScene_calls = true.
Proof.
  apply scene_tags_resolve; reflexivity.
Defined.

Lemma ProcessKeyboardEvents_mode_witness :
  let fs' := ProcessKeyboardEvents witness_frame
               (mkKeys false false false false false false false true true) in
  bOrthographicProjection (view fs') =
    (if true && negb false then true
     else if true && negb false then false
     else bOrthographicProjection ViewManager_init) /\
  pKeyWasPressed fs' = true /\ oKeyWasPressed fs' = true /\
  cameraStatesInitialized (view fs') = true.
Proof.
  apply (ProcessKeyboardEvents_mode witness_frame
           (mkKeys false false false false false false false true true)).
  reflexivity.
Defined.

Lemma ProcessKeyboardEvents_moves_witness :
  let keys := mkKeys false true false false true false false false false in
  let c := cam ViewManager_init in
  let v := MovementSpeed c * (1 / 60) in
  view (ProcessKeyboardEvents witness_frame keys) =
  set_cam ViewManager_init
    (camera_at c
       (vec3_add (Position c)
          (vec3_add (vec3_scale ((b2R true - b2R false) * v) (Front c))
             (vec3_add (vec3_scale ((b2R true - b2R false) * v) (Right c))
                (vec3_scale ((b2R false - b2R false) * v) (Up c)))))).
Proof.
  apply (ProcessKeyboardEvents_moves witness_frame
           (mkKeys false true false false true false false false false));
    reflexivity.
Defined.

Lemma roundtrip_exact_after_mouse_move_witness :
  let st1 := fst (Mouse_Position_Callback ViewManager_init (mkdyadic 520 0) (mkdyadic 390 0)) in
  cam (SwitchToPerspective (SwitchToOrthographic st1)) = cam st1.
Proof.
  apply roundtrip_exact_after_mouse_move; reflexivity.
Defined.

Lemma Mouse_Position_offsets_float_witness :
  let offsets := snd (Mouse_Position_Callback ViewManager_init (mkdyadic 520 0) (mkdyadic 390 0)) in
  dval (fst offsets) = 0 /\ dval (snd offsets) = 0.
Proof.
  pose proof (Mouse_Position_offsets_float ViewManager_init (mkdyadic 520 0) (mkdyadic 390 0)) as H.
  cbv zeta in H |- *.
  destruct (Mouse_Position_Callback ViewManager_init (mkdyadic 520 0) (mkdyadic 390 0))
    as [st' offsets].
  destruct H as (_ & _ & _ & _ & _ & H). cbn [snd].
  apply H; reflexivity.
Defined.

Lemma mouse_moves_offsets_sum_witness :
  let ps := [(mkdyadic 520 0, mkdyadic 390 0); (mkdyadic 530 0, mkdyadic 380 0);
             (mkdyadic 515 0, mkdyadic 401 0)] in
  let (st', offs) := mouse_moves ViewManager_init ps in
  sum_R (map (fun o => dval (fst o)) offs) =
    dval (gLastX st') - dval (fst (reference_position ViewManager_init ps)) /\
  sum_R (map (fun o => dval (snd o)) offs) =
    dval (snd (reference_position ViewManager_init ps)) - dval (gLastY st').
Proof.
  apply mouse_moves_offsets_sum.
  - intros H. discriminate H.
  - repeat constructor.
Defined.
